(** * awesome-fiftyone: the cubes dataset importer and the training notes

    A shallow embedding of
      - [datasets/cubes/__init__.py]  ([download_and_prepare], [load_dataset])
      - [getting-started-coffee/training_notes.py]  (a module-level script)
    Both files are glue code around external libraries ([os], [fiftyone],
    [flash]).  The libraries are not part of the repository: every call into
    them is an event answered by an arbitrary world, which either returns a
    value or raises.  The scripts themselves are programs over those events;
    running a program against a world yields the outcome seen by the caller
    and the log of the calls that were made. *)

From stdpp Require Import base option list gmap strings fin_maps.

Local Open Scope string_scope.
Local Open Scope Z_scope.
Local Open Scope list_scope.

(** ** Python [str] operations used by the sources

    A [str] is modelled by [string].  The three needles that occur in the
    sources (".jpg", ".png", "abnormal") are ASCII, for which matching on the
    encoded text and on code points agree. *)

Module PyStr.

(** [s.startswith(prefix)] *)
Fixpoint startswith (s prefix : string) {struct prefix} : bool :=
  match prefix, s with
  | EmptyString, _ => true
  | String a prefix', String b s' => bool_decide (a = b) && startswith s' prefix'
  | String _ _, EmptyString => false
  end.

(** [s[n:]] for [0 <= n] *)
Fixpoint slice_from (n : nat) (s : string) : string :=
  match n, s with
  | O, _ => s
  | S n', String _ s' => slice_from n' s'
  | S _, EmptyString => EmptyString
  end.

(** [s.endswith(suffix)]: the tail of [s] of the suffix's length is
    compared with the suffix; a suffix longer than [s] never matches. *)
Definition endswith (s suffix : string) : bool :=
  (String.length suffix <=? String.length s)%nat
  && bool_decide (slice_from (String.length s - String.length suffix) s = suffix).

(** [sub in s]: [sub] starts at some position of [s]. *)
Fixpoint contains (s sub : string) : bool :=
  startswith s sub
  || match s with
     | EmptyString => false
     | String _ s' => contains s' sub
     end.

(** truth value of a [str]: only the empty string is false *)
Definition truthy (s : string) : bool :=
  match s with
  | EmptyString => false
  | String _ _ => true
  end.

(** What the operations are meant to decide. *)
Definition StartsWith (s prefix : string) : Prop := ∃ post, s = prefix +:+ post.
Definition EndsWith (s suffix : string) : Prop := ∃ pre, s = pre +:+ suffix.
Definition Contains (s sub : string) : Prop := ∃ pre post, s = pre +:+ sub +:+ post.

End PyStr.

(** ** [os.path.join] on two components, as in [posixpath.join] *)

Module os_path.

Definition sep : string := "/".

Definition join (a b : string) : string :=
  if PyStr.startswith b sep then b
  else if negb (PyStr.truthy a) || PyStr.endswith a sep then a +:+ b
  else a +:+ sep +:+ b.

End os_path.

(** ** Values that cross the library boundary *)

(** An exception object: its class and its argument. *)
Inductive exception : Type :=
  Exception (cls : string) (arg : string).

(** A reference to an object owned by an external library (a dataset, a
    data module, a model, a trainer, a session, a label). *)
Inductive obj : Type :=
  Obj (id : nat).

(** [fiftyone.core.labels.Classification(label=...)] *)
Record Classification : Type := { label : string }.

(** [fiftyone.Sample(filepath=..., ground_truth=...)]: the arguments the
    constructor is called with. *)
Record Sample : Type := { filepath : string; ground_truth : Classification }.

(** The entries a prediction dictionary holds: paths and label objects.
    Both are hashable, so both may serve as dictionary keys. *)
Inductive pyval : Type :=
  | PStr (s : string)
  | PObj (o : obj).

#[global] Instance obj_eq_dec : EqDecision obj.
Proof. solve_decision. Defined.

#[global] Instance obj_countable : Countable obj.
Proof.
  refine (inj_countable' (λ o, match o with Obj n => n end) Obj _).
  by intros [].
Defined.

#[global] Instance pyval_eq_dec : EqDecision pyval.
Proof. solve_decision. Defined.

#[global] Instance pyval_countable : Countable pyval.
Proof.
  refine (inj_countable'
            (λ v, match v with PStr s => inl s | PObj o => inr o end)
            (λ x, match x with inl s => PStr s | inr o => PObj o end) _).
  by intros [].
Defined.

#[global] Instance exception_eq_dec : EqDecision exception.
Proof. solve_decision. Defined.

(** One prediction as the trainer's output transform yields it: a [dict]
    with string keys. *)
Abbreviation pydict := (gmap string pyval).

(** Keyword arguments collected by [**kwargs]. *)
Abbreviation kwargs_t := (gmap string pyval).

(** [fiftyone.types] dataset type classes named by the sources. *)
Inductive fo_types : Type :=
  | ImageClassificationDirectoryTree
  | ImageSegmentationDirectory.

(** ** Calls into the external libraries

    One constructor per library operation the sources invoke, carrying the
    arguments it is invoked with.  Import statements and the lookup of
    module attributes only bind names and are not events. *)

Inductive call : Type :=
  (* datasets/cubes/__init__.py *)
  | os_makedirs (name : string) (exist_ok : bool)
  | os_listdir (path : string)
  | Dataset_add_samples (dataset : obj) (samples : list Sample)
  (* getting-started-coffee/training_notes.py *)
  | download_data (url path : string)
  | Dataset_from_dir (dataset_dir : string) (dataset_type : fo_types)
      (data_path labels_path : string) (force_grayscale shuffle : bool)
  | Dataset_take (dataset : obj) (size : Z)
  | SemanticSegmentationData_from_fiftyone
      (train_dataset test_dataset val_dataset predict_dataset : obj)
      (label_field : string) (image_size : Z * Z) (num_classes batch_size : Z)
  | DataModule_num_classes (datamodule : obj)
  | SemanticSegmentation (backbone head : string) (num_classes : Z)
  | Trainer (max_epochs limit_train_batches limit_val_batches : Z)
  | Trainer_finetune (trainer model datamodule : obj) (strategy : string)
  | Trainer_save_checkpoint (trainer : obj) (filepath : string)
  | FiftyOneSegmentationLabelsOutput
  | Trainer_predict (trainer model datamodule output : obj)
  | Dataset_set_values (dataset : obj) (field_name : string)
      (values : gmap pyval pyval) (key_field : string)
  | launch_app (dataset : obj).

(** What a call hands back when it does not raise. *)
Definition ret (c : call) : Type :=
  match c with
  | os_listdir _ => list string
  | DataModule_num_classes _ => Z
  | Trainer_predict _ _ _ _ => list (list pydict)
  | Dataset_from_dir _ _ _ _ _ _
  | Dataset_take _ _
  | SemanticSegmentationData_from_fiftyone _ _ _ _ _ _ _ _
  | SemanticSegmentation _ _ _
  | Trainer _ _ _
  | FiftyOneSegmentationLabelsOutput
  | launch_app _ => obj
  | os_makedirs _ _
  | Dataset_add_samples _ _
  | download_data _ _
  | Trainer_finetune _ _ _ _
  | Trainer_save_checkpoint _ _
  | Dataset_set_values _ _ _ _ => unit
  end.

(** Returned values as they are written to the log. *)
Inductive value : Type :=
  | VNone
  | VObj (o : obj)
  | VInt (n : Z)
  | VNames (names : list string)
  | VBatches (batches : list (list pydict)).

Definition to_value (c : call) : ret c → value :=
  match c with
  | os_listdir _ => VNames
  | DataModule_num_classes _ => VInt
  | Trainer_predict _ _ _ _ => VBatches
  | Dataset_from_dir _ _ _ _ _ _
  | Dataset_take _ _
  | SemanticSegmentationData_from_fiftyone _ _ _ _ _ _ _ _
  | SemanticSegmentation _ _ _
  | Trainer _ _ _
  | FiftyOneSegmentationLabelsOutput
  | launch_app _ => VObj
  | os_makedirs _ _
  | Dataset_add_samples _ _
  | download_data _ _
  | Trainer_finetune _ _ _ _
  | Trainer_save_checkpoint _ _
  | Dataset_set_values _ _ _ _ => λ _, VNone
  end.

(** ** Programs

    A program returns, raises an exception of its own (a failing subscript),
    or calls a library and goes on with what the call returned.  The sources
    contain no [try] statement, so there is no construct that intercepts an
    exception. *)

Inductive prog (A : Type) : Type :=
  | Ret (a : A)
  | Throw (e : exception)
  | Do (c : call) (k : ret c → prog A).

Arguments Ret {A} a.
Arguments Throw {A} e.
Arguments Do {A} c k.

Fixpoint bind {A B} (p : prog A) (f : A → prog B) : prog B :=
  match p with
  | Ret a => f a
  | Throw e => Throw e
  | Do c k => Do c (λ x, bind (k x) f)
  end.

Definition perform (c : call) : prog (ret c) := Do c Ret.

Definition lift {A} (r : exception + A) : prog A :=
  match r with
  | inl e => Throw e
  | inr a => Ret a
  end.

Declare Scope prog_scope.
Delimit Scope prog_scope with prog.
Notation "x <- c ;; k" := (bind c (λ x, k))
  (at level 100, c at next level, right associativity) : prog_scope.
Notation "c ;; k" := (bind c (λ _, k))
  (at level 100, right associativity) : prog_scope.

(** ** Running a program against a world *)

Inductive outcome (A : Type) : Type :=
  | Returned (a : A)
  | Raised (e : exception).

Arguments Returned {A} a.
Arguments Raised {A} e.

(** A log entry: the call and how the library answered it. *)
Record event : Type := Event { ev_call : call; ev_result : exception + value }.

Record result (W A : Type) : Type :=
  Result { outcome_of : outcome A; trace : list event; final : W }.

Arguments Result {W A} _ _ _.
Arguments outcome_of {W A} _.
Arguments trace {W A} _.
Arguments final {W A} _.

(** The run [r], with the entry [ev] put in front of its log. *)
Definition logged {W A} (ev : event) (r : result W A) : result W A :=
  Result (outcome_of r) (ev :: trace r) (final r).

Section Run.

(** The state of everything outside the program (file system, network,
    library objects), and how it answers a call. *)
Variable W : Type.
Variable handle : ∀ c : call, W → (exception + ret c) * W.

Fixpoint run {A} (p : prog A) (w : W) : result W A :=
  match p with
  | Ret a => Result (Returned a) [] w
  | Throw e => Result (Raised e) [] w
  | Do c k =>
      match handle c w with
      | (inl e, w') => Result (Raised e) [Event c (inl e)] w'
      | (inr x, w') => logged (Event c (inr (to_value c x))) (run (k x) w')
      end
  end.

(** The calls a run made, in order. *)
Definition calls {A} (r : result W A) : list call := ev_call <$> trace r.

End Run.

Arguments run {W} handle {A} p w.
Arguments calls {W A} r.

Local Open Scope prog_scope.

(** ** datasets/cubes/__init__.py *)

Module cubes.

(** Lines 20-23: the directory that is prepared.  [if split:] is false
    for [None] and for the empty [str]. *)
Definition dataset_path (dataset_dir : string) (split : option string) : string :=
  match split with
  | Some s => if PyStr.truthy s then os_path.join dataset_dir s else dataset_dir
  | None => dataset_dir
  end.

Definition download_and_prepare
    (dataset_dir : string) (split : option string) (kwargs : kwargs_t)
  : prog (fo_types * Z * list string) :=
  let dataset_path := dataset_path dataset_dir split in
  perform (os_makedirs dataset_path true) ;;
  let dataset_type := ImageClassificationDirectoryTree in
  let num_samples := 188 in
  let classes := ["abnormal"; "normal"] in
  Ret (dataset_type, num_samples, classes).

(** Lines 51-56: one turn of the loop over the listing. *)
Definition loop_body (dataset_dir : string) (samples : list Sample) (img_path : string)
  : list Sample :=
  if PyStr.endswith img_path ".jpg" || PyStr.endswith img_path ".png" then
    let filepath := os_path.join dataset_dir img_path in
    let label := if PyStr.contains img_path "abnormal" then "abnormal" else "normal" in
    let sample := {| filepath := filepath; ground_truth := {| label := label |} |} in
    samples ++ [sample]
  else samples.

(** Lines 50-56: the loop, started with the samples collected so far. *)
Definition loop (dataset_dir : string) (listing : list string) (samples : list Sample)
  : list Sample :=
  foldl (loop_body dataset_dir) samples listing.

Definition load_dataset
    (dataset : obj) (dataset_dir : string) (split : option string) (kwargs : kwargs_t)
  : prog unit :=
  let samples := [] in
  listing <- perform (os_listdir dataset_dir) ;;
  let samples := loop dataset_dir listing samples in
  perform (Dataset_add_samples dataset samples) ;;
  Ret tt.

End cubes.

(** ** getting-started-coffee/training_notes.py *)

Module training_notes.

(** [p[key]] on a [dict] *)
Definition subscript (p : pydict) (key : string) : exception + pyval :=
  match p !! key with
  | Some v => inr v
  | None => inl (Exception "KeyError" key)
  end.

(** [{p["filepath"]: p["predictions"] for p in predictions}], started from
    the entries [d] collected so far: a later entry replaces an earlier one
    with the same key. *)
Fixpoint dict_comprehension (predictions : list pydict) (d : gmap pyval pyval)
  : exception + gmap pyval pyval :=
  match predictions with
  | [] => inr d
  | p :: rest =>
      match subscript p "filepath" with
      | inl e => inl e
      | inr k =>
          match subscript p "predictions" with
          | inl e => inl e
          | inr v => dict_comprehension rest (<[k:=v]> d)
          end
      end
  end.

(** The module body, lines 15-79. *)
Definition module_body : prog unit :=
  perform (download_data
    "https://github.com/ongchinkiat/LyftPerceptionChallenge/releases/download/v0.1/carla-capture-20180513A.zip"
    "/tmp/carla_data/") ;;
  dataset <- perform (Dataset_from_dir "/tmp/carla_data" ImageSegmentationDirectory
                        "CameraRGB" "CameraSeg" true true) ;;
  predict_dataset <- perform (Dataset_take dataset 5) ;;
  datamodule <- perform (SemanticSegmentationData_from_fiftyone
                           dataset dataset dataset predict_dataset
                           "ground_truth" (256, 256) 21 4) ;;
  num_classes <- perform (DataModule_num_classes datamodule) ;;
  model <- perform (SemanticSegmentation "mobilenetv3_large_100" "fpn" num_classes) ;;
  trainer <- perform (Trainer 1 10 5) ;;
  perform (Trainer_finetune trainer model datamodule "freeze") ;;
  perform (Trainer_save_checkpoint trainer "/tmp/semantic_segmentation_model.pt") ;;
  output <- perform FiftyOneSegmentationLabelsOutput ;;
  predictions <- perform (Trainer_predict trainer model datamodule output) ;;
  let predictions := concat predictions in
  predictions <- lift (dict_comprehension predictions ∅) ;;
  perform (Dataset_set_values dataset "flash_predictions" predictions "filepath") ;;
  session <- perform (launch_app predict_dataset) ;;
  Ret tt.

End training_notes.

(** ** A small concrete world, used to run the programs on examples *)

Module demo.

(** A directory tree: each directory with its entries. *)
Abbreviation world := (gmap string (list string)).

Definition disk : world :=
  {[ "/data/cubes" := ["abnormal_01.jpg"; "normal_07.png"; "notes.txt"; "cube_abnormal.png"] ]}.

Definition batches : list (list pydict) :=
  [ [ {[ "filepath" := PStr "/tmp/carla_data/CameraRGB/F61-1.png"; "predictions" := PObj (Obj 11) ]};
      {[ "filepath" := PStr "/tmp/carla_data/CameraRGB/F61-2.png"; "predictions" := PObj (Obj 12) ]} ];
    [ {[ "filepath" := PStr "/tmp/carla_data/CameraRGB/F61-1.png"; "predictions" := PObj (Obj 13) ]} ] ].

Definition handle (c : call) (w : world) : (exception + ret c) * world :=
  match c return (exception + ret c) * world with
  | os_makedirs name _ =>
      (inr (), match w !! name with Some _ => w | None => <[name:=[]]> w end)
  | os_listdir path =>
      (match w !! path with
       | Some entries => inr entries
       | None => inl (Exception "FileNotFoundError" path)
       end, w)
  | Dataset_add_samples _ _ => (inr (), w)
  | download_data _ path => (inr (), <[path:=["CameraRGB"; "CameraSeg"]]> w)
  | Dataset_from_dir _ _ _ _ _ _ => (inr (Obj 1), w)
  | Dataset_take _ _ => (inr (Obj 2), w)
  | SemanticSegmentationData_from_fiftyone _ _ _ _ _ _ _ _ => (inr (Obj 3), w)
  | DataModule_num_classes _ => (inr 21, w)
  | SemanticSegmentation _ _ _ => (inr (Obj 4), w)
  | Trainer _ _ _ => (inr (Obj 5), w)
  | Trainer_finetune _ _ _ _ => (inr (), w)
  | Trainer_save_checkpoint _ path => (inr (), w)
  | FiftyOneSegmentationLabelsOutput => (inr (Obj 6), w)
  | Trainer_predict _ _ _ _ => (inr batches, w)
  | Dataset_set_values _ _ _ _ => (inr (), w)
  | launch_app _ => (inr (Obj 7), w)
  end.

End demo.

(** Further situations on the concrete world. *)

Module scenario.

(** A directory without images, an empty one, and the example directory. *)
Definition disk : demo.world :=
  {[ "/data/docs" := ["readme.md"; "photo.JPG"; "jpg"];
     "/data/empty" := [];
     "/data/cubes" := ["abnormal_01.jpg"; "normal_07.png"; "notes.txt"; "cube_abnormal.png"] ]}.

(** The concrete world, with the trainer predicting [batches]. *)
Definition predicting (batches : list (list pydict)) (c : call) (w : demo.world)
  : (exception + ret c) * demo.world :=
  match c return (exception + ret c) * demo.world with
  | Trainer_predict _ _ _ _ => (inr batches, w)
  | c' => demo.handle c' w
  end.

(** Batches whose third prediction has lost its "predictions" entry. *)
Definition incomplete : list (list pydict) :=
  [ [ {[ "filepath" := PStr "a.png"; "predictions" := PObj (Obj 11) ]};
      {[ "filepath" := PStr "b.png"; "predictions" := PObj (Obj 12) ]} ];
    [ {[ "filepath" := PStr "c.png" ]} ] ].

(** Batches with one prediction per file. *)
Definition distinct : list (list pydict) :=
  [ [ {[ "filepath" := PStr "a.png"; "predictions" := PObj (Obj 11) ]} ];
    [];
    [ {[ "filepath" := PStr "b.png"; "predictions" := PObj (Obj 12) ]} ] ].

End scenario.

(** ** Notions used in the statements *)

(** A directory entry qualifies as an image by its extension. *)
Definition qualifying (name : string) : Prop :=
  PyStr.EndsWith name ".jpg" ∨ PyStr.EndsWith name ".png".

(** The label the importer is meant to give an image. *)
Definition labelled (name : string) (s : Sample) : Prop :=
  (PyStr.Contains name "abnormal" → label (ground_truth s) = "abnormal")
  ∧ (¬ PyStr.Contains name "abnormal" → label (ground_truth s) = "normal").

(** An exception raised by a library call reaches the caller as it is, and
    the call that raised is the last thing the program did. *)
Definition propagates {W A} (handle : ∀ c : call, W → (exception + ret c) * W)
    (p : prog A) : Prop :=
  ∀ w before c e after,
    trace (run handle p w) = before ++ Event c (inl e) :: after →
    after = [] ∧ outcome_of (run handle p w) = Raised e.

(** Every exception the caller receives is one that a library call raised,
    and that call is the last entry of the log. *)
Definition raises_only_from_calls {W A}
    (handle : ∀ c : call, W → (exception + ret c) * W) (p : prog A) : Prop :=
  ∀ w e,
    outcome_of (run handle p w) = Raised e →
    ∃ before c, trace (run handle p w) = before ++ [Event c (inl e)].

(** The path claimed for [download_and_prepare]: the join whenever a split
    is passed, the directory itself for [None]. *)
Definition path_by_presence (dataset_dir : string) (split : option string) : string :=
  match split with
  | Some s => os_path.join dataset_dir s
  | None => dataset_dir
  end.

(** Among the predictions [ps], the last one for the file path [k] holds the
    prediction [v]. *)
Definition last_for (ps : list pydict) (k v : pyval) : Prop :=
  ∃ i p,
    ps !! i = Some p
    ∧ p !! "filepath" = Some k
    ∧ p !! "predictions" = Some v
    ∧ Forall (λ q : pydict, q !! "filepath" ≠ Some k) (drop (S i) ps).

(** * Properties *)

(** ** The string operations decide what they are meant to *)

Section StringFacts.

Import PyStr.

Lemma app_nil s : "" +:+ s = s.
Proof. reflexivity. Qed.

Lemma app_cons a s t : String a s +:+ t = String a (s +:+ t).
Proof. reflexivity. Qed.

Lemma startswith_spec s prefix : startswith s prefix = true ↔ StartsWith s prefix.
Proof.
  revert s. induction prefix as [|a prefix IH]; intros s; simpl.
  - split; [intros _; by exists s | done].
  - destruct s as [|b s]; simpl.
    + split; [done | intros [post H]; discriminate H].
    + rewrite andb_true_iff, bool_decide_eq_true, IH. split.
      * intros [-> [post ->]]. by exists post.
      * intros [post H]. rewrite app_cons in H. injection H as -> ->.
        split; [done | by exists post].
Qed.

Lemma length_app s t : String.length (s +:+ t) = (String.length s + String.length t)%nat.
Proof. induction s as [|a s IH]; [done |]. rewrite app_cons. simpl. by rewrite IH. Qed.

Lemma slice_from_app pre s : slice_from (String.length pre) (pre +:+ s) = s.
Proof. induction pre as [|a pre IH]; [done |]. rewrite app_cons. exact IH. Qed.

Lemma slice_from_cut n s : ∃ pre, s = pre +:+ slice_from n s.
Proof.
  revert s. induction n as [|n IH]; intros s; simpl.
  - by exists "".
  - destruct s as [|a s]; [by exists "" |].
    destruct (IH s) as [pre H]. exists (String a pre). rewrite app_cons. by f_equal.
Qed.

Lemma endswith_spec s suffix : endswith s suffix = true ↔ EndsWith s suffix.
Proof.
  unfold endswith. rewrite andb_true_iff, bool_decide_eq_true, Nat.leb_le. split.
  - intros [_ H].
    destruct (slice_from_cut (String.length s - String.length suffix) s) as [pre Hpre].
    exists pre. by rewrite <- H.
  - intros [pre ->]. rewrite length_app. split; [lia |].
    replace (String.length pre + String.length suffix - String.length suffix)%nat
      with (String.length pre) by lia.
    apply slice_from_app.
Qed.

Lemma contains_here s sub : startswith s sub = true → contains s sub = true.
Proof. intros H. destruct s; simpl; rewrite H; done. Qed.

Lemma contains_spec s sub : contains s sub = true ↔ Contains s sub.
Proof.
  split.
  - induction s as [|a s IH]; simpl; rewrite orb_true_iff, startswith_spec.
    + intros [[post H]|]; [|done]. by exists "", post.
    + intros [[post H]|H]; [by exists "", post |].
      destruct (IH H) as (pre & post & ->). by exists (String a pre), post.
  - intros (pre & post & ->). induction pre as [|a pre IH].
    + rewrite app_nil. apply contains_here, startswith_spec. by exists post.
    + rewrite app_cons. simpl. rewrite orb_true_iff. by right.
Qed.

Lemma truthy_spec s : truthy s = true ↔ s ≠ "".
Proof. by destruct s. Qed.

End StringFacts.

#[global] Instance EndsWith_dec s suffix : Decision (PyStr.EndsWith s suffix).
Proof.
  refine (cast_if (decide (PyStr.endswith s suffix = true))); by rewrite <- endswith_spec.
Defined.

#[global] Instance Contains_dec s sub : Decision (PyStr.Contains s sub).
Proof.
  refine (cast_if (decide (PyStr.contains s sub = true))); by rewrite <- contains_spec.
Defined.

#[global] Instance qualifying_dec name : Decision (qualifying name).
Proof. unfold qualifying. apply _. Defined.

(** ** The importer's loop *)

Section Loop.

Import PyStr cubes.

Lemma qualifying_spec name :
  endswith name ".jpg" || endswith name ".png" = true ↔ qualifying name.
Proof. unfold qualifying. by rewrite orb_true_iff, !endswith_spec. Qed.

Lemma loop_body_qualifying dataset_dir samples img_path :
  qualifying img_path →
  ∃ s, loop_body dataset_dir samples img_path = samples ++ [s]
       ∧ filepath s = os_path.join dataset_dir img_path
       ∧ labelled img_path s.
Proof.
  intros Hq%qualifying_spec. unfold loop_body. rewrite Hq.
  eexists. split; [reflexivity |]. split; [reflexivity |]. unfold labelled. simpl.
  destruct (contains img_path "abnormal") eqn:E.
  - split; [done |]. intros Hn. by apply contains_spec in E.
  - split; [| done]. intros Hc%contains_spec. congruence.
Qed.

Lemma loop_body_other dataset_dir samples img_path :
  ¬ qualifying img_path → loop_body dataset_dir samples img_path = samples.
Proof.
  intros Hq. unfold loop_body.
  destruct (endswith img_path ".jpg" || endswith img_path ".png") eqn:E; [| done].
  by apply qualifying_spec in E.
Qed.

(** The samples already collected stay in front, untouched. *)
Lemma loop_acc dataset_dir listing samples :
  loop dataset_dir listing samples = samples ++ loop dataset_dir listing [].
Proof.
  unfold loop. revert samples.
  induction listing as [|img_path listing IH]; intros samples; simpl.
  - by rewrite app_nil_r.
  - rewrite IH, (IH (loop_body _ [] _)). rewrite app_assoc. f_equal.
    unfold loop_body.
    destruct (endswith img_path ".jpg" || endswith img_path ".png"); [done |].
    by rewrite app_nil_r.
Qed.

Lemma loop_cons dataset_dir img_path listing :
  loop dataset_dir (img_path :: listing) []
  = loop_body dataset_dir [] img_path ++ loop dataset_dir listing [].
Proof. unfold loop at 1. simpl. apply loop_acc. Qed.

Lemma loop_app dataset_dir l1 l2 :
  loop dataset_dir (l1 ++ l2) [] = loop dataset_dir l1 [] ++ loop dataset_dir l2 [].
Proof. unfold loop at 1. rewrite foldl_app. apply loop_acc. Qed.

(** One sample per qualifying entry, in the order of the listing. *)
Lemma loop_samples dataset_dir listing :
  Forall2 (λ img_path s, filepath s = os_path.join dataset_dir img_path ∧ labelled img_path s)
    (filter qualifying listing) (loop dataset_dir listing []).
Proof.
  induction listing as [|img_path listing IH]; [constructor |].
  rewrite loop_cons. destruct (decide (qualifying img_path)) as [Hq|Hq].
  - rewrite filter_cons_True by done.
    destruct (loop_body_qualifying dataset_dir [] img_path Hq) as (s & -> & Hs).
    simpl. by constructor.
  - rewrite filter_cons_False by done. by rewrite loop_body_other.
Qed.

Lemma loop_filepaths dataset_dir listing :
  filepath <$> loop dataset_dir listing []
  = os_path.join dataset_dir <$> filter qualifying listing.
Proof.
  generalize (loop_samples dataset_dir listing).
  generalize (filter qualifying listing) (loop dataset_dir listing []).
  intros names samples H.
  induction H as [|img_path s names samples [Hs _] _ IH]; [done |].
  rewrite !fmap_cons. by f_equal.
Qed.

End Loop.

(** ** Runs of the importer *)

Section Importer.

Import cubes.

Context {W : Type} (handle : ∀ c : call, W → (exception + ret c) * W).

Lemma download_and_prepare_run w dataset_dir split kwargs :
  run handle (download_and_prepare dataset_dir split kwargs) w
  = let c := os_makedirs (dataset_path dataset_dir split) true in
    match handle c w with
    | (inl e, w') => Result (Raised e) [Event c (inl e)] w'
    | (inr _, w') =>
        Result (Returned (ImageClassificationDirectoryTree, 188, ["abnormal"; "normal"]))
          [Event c (inr VNone)] w'
    end.
Proof.
  unfold download_and_prepare. simpl.
  by destruct (handle (os_makedirs (dataset_path dataset_dir split) true) w) as [[e|x] w'].
Qed.

Lemma load_dataset_run w w' dataset dataset_dir split kwargs listing :
  handle (os_listdir dataset_dir) w = (inr listing, w') →
  ∃ r, trace (run handle (load_dataset dataset dataset_dir split kwargs) w)
       = [Event (os_listdir dataset_dir) (inr (VNames listing));
          Event (Dataset_add_samples dataset (loop dataset_dir listing [])) r].
Proof.
  intros H. unfold load_dataset. simpl. rewrite H.
  destruct (handle (Dataset_add_samples dataset (loop dataset_dir listing [])) w')
    as [[e|x] w'']; simpl; by eexists.
Qed.

Lemma load_dataset_calls w w' dataset dataset_dir split kwargs listing :
  handle (os_listdir dataset_dir) w = (inr listing, w') →
  calls (run handle (load_dataset dataset dataset_dir split kwargs) w)
  = [os_listdir dataset_dir; Dataset_add_samples dataset (loop dataset_dir listing [])].
Proof.
  intros H.
  destruct (load_dataset_run w w' dataset dataset_dir split kwargs listing H) as [r Hr].
  unfold calls. by rewrite Hr.
Qed.

(** C1. Whenever the listing of [dataset_dir] succeeds, the samples handed
    to [dataset.add_samples] correspond one to one, in order, to the listed
    file names with an image extension, and the sample made for a name has
    the label "abnormal" if the name contains "abnormal" and the label
    "normal" otherwise. *)
Theorem load_dataset_labels w w' dataset dataset_dir split kwargs listing :
  handle (os_listdir dataset_dir) w = (inr listing, w') →
  ∃ samples,
    calls (run handle (load_dataset dataset dataset_dir split kwargs) w)
    = [os_listdir dataset_dir; Dataset_add_samples dataset samples]
    ∧ Forall2 labelled (filter qualifying listing) samples.
Proof.
  intros H. exists (loop dataset_dir listing []).
  split; [by eapply load_dataset_calls |].
  eapply Forall2_impl; [apply loop_samples |]. by intros img_path s [_ Hl].
Qed.

(** C2. Whenever the listing succeeds, an entry of it contributes to the
    samples exactly at its place: one sample, for its joined path, if its
    name ends with ".jpg" or ".png", and nothing otherwise. *)
Theorem load_dataset_extension_filter
    w w' dataset dataset_dir split kwargs before img_path after :
  handle (os_listdir dataset_dir) w = (inr (before ++ img_path :: after), w') →
  ∃ here,
    calls (run handle (load_dataset dataset dataset_dir split kwargs) w)
    = [os_listdir dataset_dir;
       Dataset_add_samples dataset
         (loop dataset_dir before [] ++ here ++ loop dataset_dir after [])]
    ∧ ((qualifying img_path
        ∧ ∃ s, here = [s] ∧ filepath s = os_path.join dataset_dir img_path)
       ∨ (¬ qualifying img_path ∧ here = [])).
Proof.
  intros H. exists (loop_body dataset_dir [] img_path). split.
  - erewrite load_dataset_calls by done. by rewrite loop_app, loop_cons.
  - destruct (decide (qualifying img_path)) as [Hq|Hq].
    + left. split; [done |].
      destruct (loop_body_qualifying dataset_dir [] img_path Hq) as (s & -> & Hs & _).
      by exists s.
    + right. split; [done |]. by apply loop_body_other.
Qed.

(** C3. Whenever the listing succeeds, the number of samples handed to
    [dataset.add_samples] is the number of listed names that end with ".jpg"
    or ".png". *)
Theorem load_dataset_sample_count w w' dataset dataset_dir split kwargs listing :
  handle (os_listdir dataset_dir) w = (inr listing, w') →
  ∃ samples,
    calls (run handle (load_dataset dataset dataset_dir split kwargs) w)
    = [os_listdir dataset_dir; Dataset_add_samples dataset samples]
    ∧ length samples = length (filter qualifying listing).
Proof.
  intros H. exists (loop dataset_dir listing []).
  split; [by eapply load_dataset_calls |].
  symmetry. eapply Forall2_length, loop_samples.
Qed.

(** C10. Whenever the listing succeeds, the file paths of the samples handed
    to [dataset.add_samples] are the joins of [dataset_dir] with the listed
    names that have an image extension, in the order of the listing. *)
Theorem load_dataset_filepaths_in_order w w' dataset dataset_dir split kwargs listing :
  handle (os_listdir dataset_dir) w = (inr listing, w') →
  ∃ samples,
    calls (run handle (load_dataset dataset dataset_dir split kwargs) w)
    = [os_listdir dataset_dir; Dataset_add_samples dataset samples]
    ∧ filepath <$> samples = os_path.join dataset_dir <$> filter qualifying listing.
Proof.
  intros H. exists (loop dataset_dir listing []).
  split; [by eapply load_dataset_calls |].
  apply loop_filepaths.
Qed.

(** C9. [load_dataset] does not look at [split]: two calls that differ in
    nothing but the split run identically (same outcome, same calls with the
    same arguments and answers, same final world), and the directory that is
    listed is [dataset_dir] itself. *)
Theorem load_dataset_ignores_split w dataset dataset_dir split1 split2 kwargs :
  run handle (load_dataset dataset dataset_dir split1 kwargs) w
  = run handle (load_dataset dataset dataset_dir split2 kwargs) w
  ∧ ∃ r rest, trace (run handle (load_dataset dataset dataset_dir split1 kwargs) w)
              = Event (os_listdir dataset_dir) r :: rest.
Proof.
  split; [reflexivity |].
  unfold load_dataset. simpl.
  destruct (handle (os_listdir dataset_dir) w) as [[e|listing] w']; simpl; by eexists _, _.
Qed.

(** C4, as amended. The directory [download_and_prepare] prepares is the join
    of [dataset_dir] and [split] when [split] is a non-empty string, and
    [dataset_dir] itself when [split] is [None] or the empty string.  Creating
    that directory is the only call the function makes, and nothing else in it
    depends on its arguments. *)
Theorem download_and_prepare_path w dataset_dir split kwargs :
  calls (run handle (download_and_prepare dataset_dir split kwargs) w)
  = [os_makedirs
       match split with
       | Some s => if decide (s = "") then dataset_dir else os_path.join dataset_dir s
       | None => dataset_dir
       end
       true]
  ∧ download_and_prepare dataset_dir split kwargs
    = (perform (os_makedirs (dataset_path dataset_dir split) true) ;;
       Ret (ImageClassificationDirectoryTree, 188, ["abnormal"; "normal"])).
Proof.
  split; [| reflexivity].
  rewrite download_and_prepare_run. simpl.
  assert (dataset_path dataset_dir split
          = match split with
            | Some s => if decide (s = "") then dataset_dir else os_path.join dataset_dir s
            | None => dataset_dir
            end) as ->.
  { destruct split as [[|a s]|]; [done | | done].
    unfold dataset_path, PyStr.truthy. by rewrite decide_False. }
  by destruct (handle _ w) as [[e|x] w'].
Qed.

(** C8. Unless creating the directory raises, [download_and_prepare] returns
    the triple (ImageClassificationDirectoryTree, 188, ["abnormal", "normal"]),
    whatever the directory, the split, the keyword arguments and the state of
    the world, hence whatever number of files the directory holds. *)
Theorem download_and_prepare_constant w dataset_dir split kwargs :
  match handle (os_makedirs (dataset_path dataset_dir split) true) w with
  | (inr _, _) =>
      outcome_of (run handle (download_and_prepare dataset_dir split kwargs) w)
      = Returned (ImageClassificationDirectoryTree, 188, ["abnormal"; "normal"])
  | (inl e, _) =>
      outcome_of (run handle (download_and_prepare dataset_dir split kwargs) w)
      = Raised e
  end.
Proof.
  rewrite download_and_prepare_run. simpl.
  by destruct (handle _ w) as [[e|x] w'].
Qed.

End Importer.

(** ** Exceptions are never intercepted *)

Section Propagation.

Context {W : Type} (handle : ∀ c : call, W → (exception + ret c) * W).

Lemma run_propagates {A} (p : prog A) : propagates handle p.
Proof.
  induction p as [a|e0|c k IH]; intros w before c' e after; simpl.
  - by destruct before.
  - by destruct before.
  - destruct (handle c w) as [[e1|x] w1]; simpl.
    + destruct before as [|ev [|ev' before]]; intros H; by simplify_eq/=.
    + destruct before as [|ev before]; intros H; simplify_eq/=.
      by eapply IH.
Qed.

(** The importer has no failing expression of its own. *)
Lemma download_and_prepare_raises dataset_dir split kwargs :
  raises_only_from_calls handle (cubes.download_and_prepare dataset_dir split kwargs).
Proof.
  intros w e. rewrite download_and_prepare_run. simpl.
  destruct (handle _ w) as [[e1|x] w1]; simpl; intros H; simplify_eq.
  by exists [], (os_makedirs (cubes.dataset_path dataset_dir split) true).
Qed.

Lemma load_dataset_raises dataset dataset_dir split kwargs :
  raises_only_from_calls handle (cubes.load_dataset dataset dataset_dir split kwargs).
Proof.
  intros w e. unfold cubes.load_dataset. simpl.
  destruct (handle (os_listdir dataset_dir) w) as [[e1|listing] w1]; simpl.
  - intros H. simplify_eq. by exists [], (os_listdir dataset_dir).
  - destruct (handle (Dataset_add_samples dataset _) w1) as [[e2|x] w2]; simpl;
      intros H; simplify_eq.
    by eexists [_], _.
Qed.

(** C6. In [download_and_prepare], in [load_dataset] and in the training
    script, whenever a library call raises, that call is the last thing the
    program does and the caller receives the very exception the call raised.
    The two importer functions raise nothing else: an exception leaving them
    is always the one raised by their last call. *)
Theorem errors_propagate_unhandled dataset dataset_dir split kwargs :
  propagates handle (cubes.download_and_prepare dataset_dir split kwargs)
  ∧ propagates handle (cubes.load_dataset dataset dataset_dir split kwargs)
  ∧ propagates handle training_notes.module_body
  ∧ raises_only_from_calls handle (cubes.download_and_prepare dataset_dir split kwargs)
  ∧ raises_only_from_calls handle (cubes.load_dataset dataset dataset_dir split kwargs).
Proof.
  split; [| split; [| split; [| split]]].
  - apply run_propagates.
  - apply run_propagates.
  - apply run_propagates.
  - apply download_and_prepare_raises.
  - apply load_dataset_raises.
Qed.

End Propagation.

(** ** The prediction mapping *)

Section Mapping.

Import training_notes.

Lemma subscript_inr (p : pydict) key v : subscript p key = inr v ↔ p !! key = Some v.
Proof. unfold subscript. destruct (p !! key); split; congruence. Qed.

Lemma last_for_nil k v : ¬ last_for [] k v.
Proof. by intros (i & p & H & _). Qed.

Lemma last_for_cons (p : pydict) ps k v :
  last_for (p :: ps) k v
  ↔ last_for ps k v
    ∨ (p !! "filepath" = Some k ∧ p !! "predictions" = Some v
       ∧ Forall (λ q : pydict, q !! "filepath" ≠ Some k) ps).
Proof.
  split.
  - intros (i & q & Hi & Hk & Hv & Hlast). destruct i as [|i]; simplify_eq/=.
    + by right.
    + left. by exists i, q.
  - intros [(i & q & Hi & Hk & Hv & Hlast)|(Hk & Hv & Hlast)].
    + by exists (S i), q.
    + by exists 0%nat, p.
Qed.

(** The dictionary built by the comprehension maps a key to the value of
    the last prediction with that key, and keeps an earlier entry only for
    a key that no prediction has. *)
Lemma dict_comprehension_lookup ps (d m : gmap pyval pyval) :
  dict_comprehension ps d = inr m →
  ∀ k v, m !! k = Some v
         ↔ last_for ps k v
           ∨ (Forall (λ q : pydict, q !! "filepath" ≠ Some k) ps ∧ d !! k = Some v).
Proof.
  revert d. induction ps as [|p ps IH]; intros d H k v; simpl in H.
  - simplify_eq. split; [intros Hm; right; by split | ].
    intros [Hl|[_ Hd]]; [by apply last_for_nil in Hl | done].
  - destruct (subscript p "filepath") as [e|kp] eqn:Hkp; [done |].
    destruct (subscript p "predictions") as [e|vp] eqn:Hvp; [done |].
    apply subscript_inr in Hkp, Hvp.
    rewrite (IH _ H k v), last_for_cons, Forall_cons.
    destruct (decide (kp = k)) as [->|Hne].
    + rewrite lookup_insert_eq, Hkp, Hvp. intuition congruence.
    + rewrite lookup_insert_ne, Hkp by done. intuition congruence.
Qed.

(** The comprehension succeeds exactly when every prediction has both keys. *)
Lemma dict_comprehension_defined ps (d : gmap pyval pyval) :
  Forall (λ p : pydict, is_Some (p !! "filepath") ∧ is_Some (p !! "predictions")) ps
  ↔ ∃ m, dict_comprehension ps d = inr m.
Proof.
  revert d. induction ps as [|p ps IH]; intros d; simpl.
  - split; [by eexists | constructor].
  - rewrite Forall_cons. unfold subscript.
    destruct (p !! "filepath") as [k|]; [| by split; [intros [[[? ?] _] _] | intros [? ?]]].
    destruct (p !! "predictions") as [v|]; [| by split; [intros [[_ [? ?]] _] | intros [? ?]]].
    rewrite (IH (<[k:=v]> d)). split; [by intros [_ ?] |].
    intros Hm. split; [split; by eexists | done].
Qed.

End Mapping.

(** ** More about the prediction mapping *)

Section MappingEdges.

Import training_notes.

(** A failing comprehension stops at the first prediction that lacks one of
    the two entries, with the [KeyError] of an entry it lacks. *)
Lemma dict_comprehension_error ps (d : gmap pyval pyval) e :
  dict_comprehension ps d = inl e →
  ∃ i (p : pydict) key,
    ps !! i = Some p
    ∧ Forall (λ q : pydict, is_Some (q !! "filepath") ∧ is_Some (q !! "predictions"))
        (take i ps)
    ∧ (key = "filepath" ∨ key = "predictions")
    ∧ p !! key = None
    ∧ e = Exception "KeyError" key.
Proof.
  revert d. induction ps as [|p ps IH]; intros d H; simpl in H; [done |].
  unfold subscript in H.
  destruct (p !! "filepath") as [k|] eqn:Hk.
  - destruct (p !! "predictions") as [v|] eqn:Hv.
    + destruct (IH _ H) as (i & q & key & Hi & Hbefore & Hkey & Hq & He).
      exists (S i), q, key. split; [done |]. split; [| done].
      simpl. constructor; [| done]. rewrite Hk, Hv. by split; eexists.
    + simplify_eq. exists 0%nat, p, "predictions". repeat split; auto.
  - simplify_eq. exists 0%nat, p, "filepath". repeat split; auto.
Qed.

Lemma dict_comprehension_keys_from ps (d m : gmap pyval pyval) :
  dict_comprehension ps d = inr m →
  (∀ k, is_Some (m !! k)
        ↔ (∃ p : pydict, p ∈ ps ∧ p !! "filepath" = Some k) ∨ is_Some (d !! k))
  ∧ (size m ≤ size d + length ps)%nat.
Proof.
  revert d. induction ps as [|p ps IH]; intros d H; simpl in H.
  - simplify_eq. split; [| lia]. intros k. split; [by right |].
    intros [(p & Hp & _)|?]; [by apply elem_of_nil in Hp | done].
  - destruct (subscript p "filepath") as [e|kp] eqn:Hkp; [done |].
    destruct (subscript p "predictions") as [e|vp] eqn:Hvp; [done |].
    apply subscript_inr in Hkp, Hvp.
    destruct (IH _ H) as [Hdom Hsize]. split.
    + intros k. rewrite Hdom, lookup_insert_is_Some. split.
      * intros [(q & Hq & Hk)|[->|[_ ?]]].
        -- left. exists q. split; [by right | done].
        -- left. exists p. split; [by left | done].
        -- by right.
      * intros [(q & Hq & Hk)|?].
        -- apply elem_of_cons in Hq as [->|Hq].
           ++ right. left. congruence.
           ++ left. by exists q.
        -- destruct (decide (kp = k)); [by right; left | by right; right].
    + rewrite map_size_insert in Hsize. simpl. destruct (d !! kp); simpl in Hsize; lia.
Qed.

Lemma dict_comprehension_distinct_from ps (d m : gmap pyval pyval) :
  dict_comprehension ps d = inr m →
  NoDup (omap (λ p : pydict, p !! "filepath") ps) →
  Forall (λ k, d !! k = None) (omap (λ p : pydict, p !! "filepath") ps) →
  size m = (size d + length ps)%nat
  ∧ (∀ p : pydict, p ∈ ps → ∃ k, p !! "filepath" = Some k ∧ m !! k = p !! "predictions")
  ∧ (∀ k, k ∉ omap (λ p : pydict, p !! "filepath") ps → m !! k = d !! k).
Proof.
  revert d. induction ps as [|p ps IH]; intros d H Hnd Hfresh; simpl in H.
  - simplify_eq. split; [simpl; lia |]. split; [| done].
    intros p Hp. by apply elem_of_nil in Hp.
  - destruct (subscript p "filepath") as [e|kp] eqn:Hkp; [done |].
    destruct (subscript p "predictions") as [e|vp] eqn:Hvp; [done |].
    apply subscript_inr in Hkp, Hvp.
    simpl in Hnd, Hfresh. rewrite Hkp in Hnd, Hfresh. simpl in Hnd, Hfresh.
    apply NoDup_cons in Hnd as [Hkp_new Hnd].
    apply Forall_cons in Hfresh as [Hkp_fresh Hfresh].
    destruct (IH (<[kp:=vp]> d) H Hnd) as (Hsize & Hall & Hother).
    { eapply Forall_impl; [apply Forall_forall; intros k Hk; exact Hk |].
      rewrite Forall_forall in Hfresh. intros k Hk. simpl.
      rewrite lookup_insert_ne; [by apply Hfresh |]. by intros ->. }
    split; [| split].
    + rewrite Hsize, map_size_insert_None by done. simpl. lia.
    + intros q [->|Hq]%elem_of_cons; [| by apply Hall].
      exists kp. split; [done |]. by rewrite (Hother kp Hkp_new), lookup_insert_eq.
    + intros k Hk. simpl in Hk. rewrite Hkp in Hk. simpl in Hk.
      apply not_elem_of_cons in Hk as [Hne Hk].
      by rewrite (Hother k Hk), lookup_insert_ne.
Qed.

(** X7. The keys of the mapping built by the comprehension are exactly the
    "filepath" entries of the predictions, so the mapping never has more
    entries than there are predictions. *)
Theorem dict_comprehension_keys ps (m : gmap pyval pyval) :
  dict_comprehension ps ∅ = inr m →
  (∀ k, is_Some (m !! k) ↔ ∃ p : pydict, p ∈ ps ∧ p !! "filepath" = Some k)
  ∧ (size m ≤ length ps)%nat.
Proof.
  intros H. destruct (dict_comprehension_keys_from ps ∅ m H) as [Hdom Hsize].
  rewrite map_size_empty in Hsize. split; [| done].
  intros k. rewrite Hdom, lookup_empty. split; [| by left].
  intros [?|[? ?]]; done.
Qed.

(** X8. When the predictions have pairwise distinct file paths, nothing is
    lost: the mapping has one entry per prediction, and looking up the file
    path of a prediction gives its "predictions" entry. *)
Theorem dict_comprehension_distinct ps (m : gmap pyval pyval) :
  dict_comprehension ps ∅ = inr m →
  NoDup (omap (λ p : pydict, p !! "filepath") ps) →
  size m = length ps
  ∧ ∀ p : pydict, p ∈ ps → ∃ k, p !! "filepath" = Some k ∧ m !! k = p !! "predictions".
Proof.
  intros H Hnd.
  destruct (dict_comprehension_distinct_from ps ∅ m H Hnd) as (Hsize & Hall & _).
  { apply Forall_forall. intros k _. apply lookup_empty. }
  rewrite map_size_empty in Hsize. by split.
Qed.

End MappingEdges.

(** ** Runs of the training script *)

Section Script.

Import training_notes.

Context {W : Type} (handle : ∀ c : call, W → (exception + ret c) * W).

(** Case analysis on the answer to the next call of the run in the goal. *)
Ltac next_answer :=
  match goal with
  | |- context [handle ?c ?w] => destruct (handle c w) as [[?|?] ?]; simpl
  | |- context [dict_comprehension ?ps ?d] =>
      let E := fresh "Hdict" in
      destruct (dict_comprehension ps d) as [?|?] eqn:E; simpl
  end.

(** Case analysis on the position of a log entry. *)
Ltac at_position :=
  repeat match goal with
    | H : _ !! ?i = Some _ |- _ => destruct i as [|i]; simpl in H; simplify_eq
    end.

Lemma dict_comprehension_empty ps (m : gmap pyval pyval) :
  dict_comprehension ps ∅ = inr m →
  ∀ k v, m !! k = Some v ↔ last_for ps k v.
Proof.
  intros H k v. rewrite (dict_comprehension_lookup ps ∅ m H k v), lookup_empty.
  split; [intros [?|[_ ?]]; done | by left].
Qed.

(** C5. A run of the training script that completes has flattened the
    batches returned by the prediction call, built from them the mapping that
    sends a file path to the "predictions" entry of the last flattened
    prediction with that "filepath", and passed that mapping to
    [dataset.set_values] on the dataset loaded at the start, for the field
    "flash_predictions" with key field "filepath".  In every run, completed or
    not, a call of [dataset.set_values] has these arguments and comes right
    after the prediction call returned, and it is made whenever the prediction
    call returns batches whose predictions all have both entries. *)
Theorem predictions_merged_by_filepath w :
  let tr := trace (run handle module_body w) in
  (∀ i dataset field values key r,
      tr !! i = Some (Event (Dataset_set_values dataset field values key) r) →
      field = "flash_predictions" ∧ key = "filepath"
      ∧ tr !! 1%nat = Some (Event (Dataset_from_dir "/tmp/carla_data"
                                     ImageSegmentationDirectory "CameraRGB" "CameraSeg"
                                     true true)
                              (inr (VObj dataset)))
      ∧ ∃ j trainer model datamodule output batches,
          i = S j
          ∧ tr !! j = Some (Event (Trainer_predict trainer model datamodule output)
                              (inr (VBatches batches)))
          ∧ dict_comprehension (concat batches) ∅ = inr values
          ∧ ∀ k v, values !! k = Some v ↔ last_for (concat batches) k v)
  ∧ (∀ j trainer model datamodule output batches,
        tr !! j = Some (Event (Trainer_predict trainer model datamodule output)
                          (inr (VBatches batches))) →
        Forall (λ p : pydict, is_Some (p !! "filepath") ∧ is_Some (p !! "predictions"))
          (concat batches) →
        ∃ dataset values r,
          tr !! S j = Some (Event (Dataset_set_values dataset "flash_predictions"
                                     values "filepath") r))
  ∧ (outcome_of (run handle module_body w) = Returned () →
     ∃ dataset trainer model datamodule output batches values,
       tr !! 1%nat = Some (Event (Dataset_from_dir "/tmp/carla_data"
                                    ImageSegmentationDirectory "CameraRGB" "CameraSeg"
                                    true true)
                             (inr (VObj dataset)))
       ∧ tr !! 10%nat = Some (Event (Trainer_predict trainer model datamodule output)
                               (inr (VBatches batches)))
       ∧ tr !! 11%nat = Some (Event (Dataset_set_values dataset "flash_predictions"
                                       values "filepath")
                               (inr VNone))
       ∧ dict_comprehension (concat batches) ∅ = inr values
       ∧ ∀ k v, values !! k = Some v ↔ last_for (concat batches) k v).
Proof.
  unfold module_body. simpl.
  repeat next_answer;
    (split; [intros ?????? H; at_position
            | split; [intros ?????? H HF; at_position | intros H; simplify_eq]]).
  all: try (repeat (split; [done |]); eexists _, _, _, _, _, _;
            repeat (split; [done |]); by apply dict_comprehension_empty).
  all: try by eexists _, _, _.
  all: try (eexists _, _, _, _, _, _, _;
            repeat (split; [done |]); by apply dict_comprehension_empty).
  all: apply (dict_comprehension_defined _ ∅) in HF as [m Hm]; congruence.
Qed.

(** C7. A run of the training script that completes has fine-tuned the
    model, then written the checkpoint to
    "/tmp/semantic_segmentation_model.pt", then predicted.  In every run,
    completed or not, that path is the only one a checkpoint is written to:
    every save is made right after the fine-tuning call has returned, a
    fine-tuning call that returns is followed by the save to that path, and a
    prediction call is made only after the save has returned. *)
Theorem checkpoint_between_finetune_and_predict w :
  let tr := trace (run handle module_body w) in
  (∀ i trainer path r,
      tr !! i = Some (Event (Trainer_save_checkpoint trainer path) r) →
      path = "/tmp/semantic_segmentation_model.pt"
      ∧ ∃ j model datamodule strategy,
          i = S j
          ∧ tr !! j = Some (Event (Trainer_finetune trainer model datamodule strategy)
                              (inr VNone)))
  ∧ (∀ j trainer model datamodule strategy,
        tr !! j = Some (Event (Trainer_finetune trainer model datamodule strategy)
                          (inr VNone)) →
        ∃ r, tr !! S j = Some (Event (Trainer_save_checkpoint trainer
                                        "/tmp/semantic_segmentation_model.pt") r))
  ∧ (∀ k trainer model datamodule output r,
        tr !! k = Some (Event (Trainer_predict trainer model datamodule output) r) →
        ∃ i, (i < k)%nat
             ∧ tr !! i = Some (Event (Trainer_save_checkpoint trainer
                                        "/tmp/semantic_segmentation_model.pt")
                                 (inr VNone)))
  ∧ (outcome_of (run handle module_body w) = Returned () →
     ∃ trainer model datamodule output batches,
       tr !! 7%nat = Some (Event (Trainer_finetune trainer model datamodule "freeze")
                             (inr VNone))
       ∧ tr !! 8%nat = Some (Event (Trainer_save_checkpoint trainer
                                      "/tmp/semantic_segmentation_model.pt")
                               (inr VNone))
       ∧ tr !! 10%nat = Some (Event (Trainer_predict trainer model datamodule output)
                                (inr (VBatches batches)))).
Proof.
  unfold module_body. simpl.
  repeat next_answer;
    (split; [intros ???? H; at_position
            | split; [intros ????? H; at_position
                     | split; [intros ?????? H; at_position | intros H; simplify_eq]]]).
  all: try (split; [done |]; by eexists _, _, _, _).
  all: try by eexists.
  all: try by eexists _, _, _, _, _.
  all: exists 8%nat; split; [lia | done].
Qed.

(** X9. A run of the training script that returns has made exactly these
    thirteen calls, in this order: the data module is built from the loaded
    dataset (as training, test and validation data) and its five-sample subset
    (as prediction data), the model takes the number of classes reported by
    the data module, and the application is launched on the subset. *)
Theorem module_body_success w :
  outcome_of (run handle module_body w) = Returned () →
  ∃ dataset predict_dataset datamodule num_classes model trainer output batches
    values session,
    trace (run handle module_body w)
    = [ Event (download_data
                 "https://github.com/ongchinkiat/LyftPerceptionChallenge/releases/download/v0.1/carla-capture-20180513A.zip"
                 "/tmp/carla_data/") (inr VNone);
        Event (Dataset_from_dir "/tmp/carla_data" ImageSegmentationDirectory
                 "CameraRGB" "CameraSeg" true true) (inr (VObj dataset));
        Event (Dataset_take dataset 5) (inr (VObj predict_dataset));
        Event (SemanticSegmentationData_from_fiftyone dataset dataset dataset
                 predict_dataset "ground_truth" (256, 256) 21 4)
          (inr (VObj datamodule));
        Event (DataModule_num_classes datamodule) (inr (VInt num_classes));
        Event (SemanticSegmentation "mobilenetv3_large_100" "fpn" num_classes)
          (inr (VObj model));
        Event (Trainer 1 10 5) (inr (VObj trainer));
        Event (Trainer_finetune trainer model datamodule "freeze") (inr VNone);
        Event (Trainer_save_checkpoint trainer "/tmp/semantic_segmentation_model.pt")
          (inr VNone);
        Event FiftyOneSegmentationLabelsOutput (inr (VObj output));
        Event (Trainer_predict trainer model datamodule output) (inr (VBatches batches));
        Event (Dataset_set_values dataset "flash_predictions" values "filepath")
          (inr VNone);
        Event (launch_app predict_dataset) (inr (VObj session)) ]
    ∧ dict_comprehension (concat batches) ∅ = inr values.
Proof.
  unfold module_body. simpl.
  repeat next_answer; intros H; simplify_eq.
  by eexists _, _, _, _, _, _, _, _, _, _.
Qed.

(** X10. When the prediction call returns batches in which some prediction
    lacks its "filepath" or its "predictions" entry, the script raises the
    [KeyError] of an entry that the first such prediction lacks, and the
    prediction call is the last call it made: nothing is written to the
    dataset and the application is not launched. *)
Theorem missing_entry_raises_KeyError w j trainer model datamodule output batches :
  trace (run handle module_body w) !! j
  = Some (Event (Trainer_predict trainer model datamodule output) (inr (VBatches batches))) →
  ¬ Forall (λ p : pydict, is_Some (p !! "filepath") ∧ is_Some (p !! "predictions"))
      (concat batches) →
  ∃ i (p : pydict) key,
    concat batches !! i = Some p
    ∧ Forall (λ q : pydict, is_Some (q !! "filepath") ∧ is_Some (q !! "predictions"))
        (take i (concat batches))
    ∧ (key = "filepath" ∨ key = "predictions")
    ∧ p !! key = None
    ∧ outcome_of (run handle module_body w) = Raised (Exception "KeyError" key)
    ∧ length (trace (run handle module_body w)) = S j.
Proof.
  unfold module_body. simpl.
  repeat next_answer; intros H HF; at_position.
  all: try (exfalso; apply HF; eapply dict_comprehension_defined; by eexists).
  apply dict_comprehension_error in Hdict as (i & p & key & ? & ? & ? & ? & ->).
  by exists i, p, key.
Qed.

(** X12. When the prediction call returns no prediction at all (no batch,
    or only empty batches), the script still calls [dataset.set_values], with
    the empty mapping. *)
Theorem no_predictions_empty_mapping w j trainer model datamodule output batches :
  trace (run handle module_body w) !! j
  = Some (Event (Trainer_predict trainer model datamodule output) (inr (VBatches batches))) →
  concat batches = [] →
  ∃ dataset r,
    trace (run handle module_body w) !! S j
    = Some (Event (Dataset_set_values dataset "flash_predictions" ∅ "filepath") r).
Proof.
  unfold module_body. simpl.
  repeat next_answer; intros H Hnil; at_position.
  all: rewrite Hnil in Hdict; simpl in Hdict; simplify_eq.
  all: by eexists _, _.
Qed.

End Script.

(** ** The programs on the concrete world *)

Section Examples.

Import cubes training_notes.

(** The listing of the example directory. *)
Lemma demo_listing :
  demo.handle (os_listdir "/data/cubes") demo.disk
  = (inr ["abnormal_01.jpg"; "normal_07.png"; "notes.txt"; "cube_abnormal.png"], demo.disk).
Proof. reflexivity. Qed.

Lemma load_dataset_labels_witness :
  ∃ samples,
    calls (run demo.handle (load_dataset (Obj 0) "/data/cubes" None ∅) demo.disk)
    = [os_listdir "/data/cubes"; Dataset_add_samples (Obj 0) samples]
    ∧ Forall2 labelled
        (filter qualifying
           ["abnormal_01.jpg"; "normal_07.png"; "notes.txt"; "cube_abnormal.png"])
        samples.
Proof.
  apply (load_dataset_labels demo.handle demo.disk demo.disk). reflexivity.
Defined.

Lemma load_dataset_extension_filter_witness :
  ∃ here,
    calls (run demo.handle (load_dataset (Obj 0) "/data/cubes" None ∅) demo.disk)
    = [os_listdir "/data/cubes";
       Dataset_add_samples (Obj 0)
         (loop "/data/cubes" ["abnormal_01.jpg"; "normal_07.png"] []
          ++ here ++ loop "/data/cubes" ["cube_abnormal.png"] [])]
    ∧ ((qualifying "notes.txt"
        ∧ ∃ s, here = [s] ∧ filepath s = os_path.join "/data/cubes" "notes.txt")
       ∨ (¬ qualifying "notes.txt" ∧ here = [])).
Proof.
  apply (load_dataset_extension_filter demo.handle demo.disk demo.disk
           (Obj 0) "/data/cubes" None ∅
           ["abnormal_01.jpg"; "normal_07.png"] "notes.txt" ["cube_abnormal.png"]).
  reflexivity.
Defined.

Lemma load_dataset_sample_count_witness :
  ∃ samples,
    calls (run demo.handle (load_dataset (Obj 0) "/data/cubes" None ∅) demo.disk)
    = [os_listdir "/data/cubes"; Dataset_add_samples (Obj 0) samples]
    ∧ length samples
      = length (filter qualifying
                  ["abnormal_01.jpg"; "normal_07.png"; "notes.txt"; "cube_abnormal.png"]).
Proof.
  apply (load_dataset_sample_count demo.handle demo.disk demo.disk). reflexivity.
Defined.

Lemma load_dataset_filepaths_in_order_witness :
  ∃ samples,
    calls (run demo.handle (load_dataset (Obj 0) "/data/cubes" None ∅) demo.disk)
    = [os_listdir "/data/cubes"; Dataset_add_samples (Obj 0) samples]
    ∧ filepath <$> samples
      = os_path.join "/data/cubes"
          <$> filter qualifying
                ["abnormal_01.jpg"; "normal_07.png"; "notes.txt"; "cube_abnormal.png"].
Proof.
  apply (load_dataset_filepaths_in_order demo.handle demo.disk demo.disk). reflexivity.
Defined.

(** What the importer hands over for the example directory. *)
Example load_dataset_demo :
  calls (run demo.handle (load_dataset (Obj 0) "/data/cubes" (Some "train") ∅) demo.disk)
  = [os_listdir "/data/cubes";
     Dataset_add_samples (Obj 0)
       [ {| filepath := "/data/cubes/abnormal_01.jpg";
            ground_truth := {| label := "abnormal" |} |};
         {| filepath := "/data/cubes/normal_07.png";
            ground_truth := {| label := "normal" |} |};
         {| filepath := "/data/cubes/cube_abnormal.png";
            ground_truth := {| label := "abnormal" |} |} ]].
Proof. reflexivity. Qed.

(** The example directory holds four entries, and 188 is reported. *)
Example download_and_prepare_demo :
  demo.disk !! "/data/cubes"
  = Some ["abnormal_01.jpg"; "normal_07.png"; "notes.txt"; "cube_abnormal.png"]
  ∧ outcome_of (run demo.handle (download_and_prepare "/data/cubes" None ∅) demo.disk)
    = Returned (ImageClassificationDirectoryTree, 188, ["abnormal"; "normal"]).
Proof. split; reflexivity. Qed.

(** C4, as stated, fails for a split that is passed but empty: the
    directory prepared is "data", while the join of "data" and "" is "data/". *)
Lemma empty_split_is_not_joined :
  calls (run demo.handle (download_and_prepare "data" (Some "") ∅) demo.disk)
  ≠ [os_makedirs (path_by_presence "data" (Some "")) true].
Proof. vm_compute. discriminate. Qed.

Example empty_split_prepares_directory_itself :
  calls (run demo.handle (download_and_prepare "data" (Some "") ∅) demo.disk)
  = [os_makedirs "data" true]
  ∧ path_by_presence "data" (Some "") = "data/".
Proof. split; reflexivity. Qed.

(** A missing directory: the exception of [os.listdir] reaches the caller. *)
Lemma errors_propagate_unhandled_witness :
  outcome_of (run demo.handle (load_dataset (Obj 0) "/nowhere" None ∅) demo.disk)
  = Raised (Exception "FileNotFoundError" "/nowhere").
Proof.
  exact (proj2 (proj1 (proj2 (errors_propagate_unhandled demo.handle
                                (Obj 0) "/nowhere" None ∅))
                  demo.disk [] (os_listdir "/nowhere")
                  (Exception "FileNotFoundError" "/nowhere") [] eq_refl)).
Defined.

(** The whole script on the example world. *)
Example module_body_demo :
  outcome_of (run demo.handle module_body demo.disk) = Returned ()
  ∧ calls (run demo.handle module_body demo.disk) !! 8%nat
    = Some (Trainer_save_checkpoint (Obj 5) "/tmp/semantic_segmentation_model.pt")
  ∧ ∃ values,
      calls (run demo.handle module_body demo.disk) !! 11%nat
      = Some (Dataset_set_values (Obj 1) "flash_predictions" values "filepath")
      ∧ values !! PStr "/tmp/carla_data/CameraRGB/F61-1.png" = Some (PObj (Obj 13))
      ∧ values !! PStr "/tmp/carla_data/CameraRGB/F61-2.png" = Some (PObj (Obj 12)).
Proof.
  split; [vm_compute; reflexivity |]. split; [vm_compute; reflexivity |].
  eexists. split; [vm_compute; reflexivity |]. split; vm_compute; reflexivity.
Qed.

End Examples.

(** ** More about the importer *)

Section ImporterEdges.

Import PyStr cubes.

Context {W : Type} (handle : ∀ c : call, W → (exception + ret c) * W).

Lemma app_assoc_str s t u : (s +:+ t) +:+ u = s +:+ t +:+ u.
Proof. induction s as [|a s IH]; [done |]. rewrite !app_cons. by f_equal. Qed.

Lemma app_cancel_l p s t : p +:+ s = p +:+ t → s = t.
Proof.
  induction p as [|a p IH]; [done |]. rewrite !app_cons. intros H. apply IH. congruence.
Qed.

(** A relative component is appended to something that depends on the
    first component only. *)
Lemma join_relative a b :
  ¬ StartsWith b "/" →
  os_path.join a b
  = (if negb (truthy a) || endswith a os_path.sep then a else a +:+ os_path.sep) +:+ b.
Proof.
  intros Hb. unfold os_path.join.
  destruct (startswith b os_path.sep) eqn:E; [by apply startswith_spec in E |].
  destruct (negb (truthy a) || endswith a os_path.sep); [done |].
  by rewrite app_assoc_str.
Qed.

Lemma join_inj a b1 b2 :
  ¬ StartsWith b1 "/" → ¬ StartsWith b2 "/" →
  os_path.join a b1 = os_path.join a b2 → b1 = b2.
Proof. intros H1 H2. rewrite !join_relative by done. apply app_cancel_l. Qed.

Lemma loop_no_images dataset_dir listing :
  Forall (λ name, ¬ qualifying name) listing → loop dataset_dir listing [] = [].
Proof.
  induction 1 as [|name listing Hn _ IH]; [done |].
  by rewrite loop_cons, loop_body_other, IH.
Qed.

Lemma length_filter_all {A} (P : A → Prop) `{!∀ x, Decision (P x)} (l : list A) :
  length (filter P l) = length l ↔ Forall P l.
Proof.
  induction l as [|x l IH]; [by split; [constructor |] |].
  destruct (decide (P x)) as [Hx|Hx].
  - rewrite filter_cons_True, Forall_cons by done. simpl. rewrite <- IH. split.
    + intros ?. split; [done | lia].
    + intros [_ ?]. lia.
  - rewrite filter_cons_False, Forall_cons by done. simpl.
    pose proof (length_filter P l). split; [lia | by intros [? _]].
Qed.

(** X1. When the listing succeeds but no listed name ends with ".jpg" or
    ".png" (an empty directory in particular), [load_dataset] still calls
    [dataset.add_samples], once, with the empty list. *)
Theorem load_dataset_no_images w w' dataset dataset_dir split kwargs listing :
  handle (os_listdir dataset_dir) w = (inr listing, w') →
  Forall (λ name, ¬ qualifying name) listing →
  calls (run handle (load_dataset dataset dataset_dir split kwargs) w)
  = [os_listdir dataset_dir; Dataset_add_samples dataset []].
Proof.
  intros H Hn. erewrite load_dataset_calls by done. by rewrite loop_no_images.
Qed.

(** X2. Every label [load_dataset] assigns is one of the classes that
    [download_and_prepare] returns. *)
Theorem labels_are_declared_classes
    w w' dataset dataset_dir split kwargs listing
    w0 dataset_dir0 split0 kwargs0 dataset_type num_samples classes :
  handle (os_listdir dataset_dir) w = (inr listing, w') →
  outcome_of (run handle (download_and_prepare dataset_dir0 split0 kwargs0) w0)
  = Returned (dataset_type, num_samples, classes) →
  ∃ samples,
    calls (run handle (load_dataset dataset dataset_dir split kwargs) w)
    = [os_listdir dataset_dir; Dataset_add_samples dataset samples]
    ∧ Forall (λ s, label (ground_truth s) ∈ classes) samples.
Proof.
  intros H Hc. exists (loop dataset_dir listing []).
  split; [by eapply load_dataset_calls |].
  rewrite download_and_prepare_run in Hc. simpl in Hc.
  destruct (handle _ w0) as [[e|x] w1]; simplify_eq/=.
  eapply Forall2_Forall_r; [apply loop_samples |].
  apply Forall_forall. intros name _ s [_ [Ha Hn]].
  destruct (decide (Contains name "abnormal")) as [Hc|Hc].
  - rewrite (Ha Hc). set_solver.
  - rewrite (Hn Hc). set_solver.
Qed.

(** X3. When the listed names are pairwise distinct and none starts with
    "/", the samples handed to [dataset.add_samples] have pairwise distinct
    file paths. *)
Theorem load_dataset_distinct_filepaths w w' dataset dataset_dir split kwargs listing :
  handle (os_listdir dataset_dir) w = (inr listing, w') →
  NoDup listing →
  Forall (λ name, ¬ StartsWith name "/") listing →
  ∃ samples,
    calls (run handle (load_dataset dataset dataset_dir split kwargs) w)
    = [os_listdir dataset_dir; Dataset_add_samples dataset samples]
    ∧ NoDup (filepath <$> samples).
Proof.
  intros H Hnd Hrel. exists (loop dataset_dir listing []).
  split; [by eapply load_dataset_calls |].
  rewrite loop_filepaths. apply NoDup_fmap_2_strong; [| by apply NoDup_filter].
  rewrite Forall_forall in Hrel.
  intros n1 n2 [_ H1]%list_elem_of_filter [_ H2]%list_elem_of_filter.
  apply join_inj; auto.
Qed.

(** X4. For a directory name that is not empty and does not end with "/",
    and listed names that do not start with "/", the file path of each sample
    is the directory name, "/", and the listed name. *)
Theorem load_dataset_filepath_shape w w' dataset dataset_dir split kwargs listing :
  handle (os_listdir dataset_dir) w = (inr listing, w') →
  dataset_dir ≠ "" →
  ¬ EndsWith dataset_dir "/" →
  Forall (λ name, ¬ StartsWith name "/") listing →
  ∃ samples,
    calls (run handle (load_dataset dataset dataset_dir split kwargs) w)
    = [os_listdir dataset_dir; Dataset_add_samples dataset samples]
    ∧ filepath <$> samples
      = (λ name, dataset_dir +:+ "/" +:+ name) <$> filter qualifying listing.
Proof.
  intros H Hne Hsep Hrel. exists (loop dataset_dir listing []).
  split; [by eapply load_dataset_calls |].
  rewrite loop_filepaths. apply Forall_fmap_ext, Forall_forall.
  rewrite Forall_forall in Hrel.
  intros name [_ Hin]%list_elem_of_filter.
  rewrite join_relative by auto.
  apply truthy_spec in Hne. rewrite Hne. simpl.
  destruct (endswith dataset_dir os_path.sep) eqn:E; [by apply endswith_spec in E |].
  apply app_assoc_str.
Qed.

(** X5. [load_dataset] never hands over more samples than there are listed
    names, and it hands over as many exactly when every listed name ends
    with ".jpg" or ".png". *)
Theorem load_dataset_drops_other_files w w' dataset dataset_dir split kwargs listing :
  handle (os_listdir dataset_dir) w = (inr listing, w') →
  ∃ samples,
    calls (run handle (load_dataset dataset dataset_dir split kwargs) w)
    = [os_listdir dataset_dir; Dataset_add_samples dataset samples]
    ∧ (length samples ≤ length listing)%nat
    ∧ (length samples = length listing ↔ Forall qualifying listing).
Proof.
  intros H. exists (loop dataset_dir listing []).
  split; [by eapply load_dataset_calls |].
  rewrite <- (Forall2_length _ _ _ (loop_samples dataset_dir listing)).
  split; [apply length_filter | apply length_filter_all].
Qed.

(** X6. A split that starts with "/" replaces the directory:
    [download_and_prepare] then prepares the split itself, whatever
    [dataset_dir] is. *)
Theorem download_and_prepare_absolute_split w dataset_dir split kwargs :
  StartsWith split "/" →
  calls (run handle (download_and_prepare dataset_dir (Some split) kwargs) w)
  = [os_makedirs split true].
Proof.
  intros Hs.
  assert (dataset_path dataset_dir (Some split) = split) as Hp.
  { unfold dataset_path, os_path.join.
    apply startswith_spec in Hs as Hb. unfold os_path.sep. rewrite Hb.
    destruct Hs as [post ->]. done. }
  rewrite download_and_prepare_run, Hp. simpl.
  by destruct (handle _ w) as [[e|x] w1].
Qed.

End ImporterEdges.

(** ** The edge cases on the concrete world *)

Section Scenarios.

Import PyStr cubes training_notes.

Lemma load_dataset_no_images_witness :
  calls (run demo.handle (load_dataset (Obj 0) "/data/docs" None ∅) scenario.disk)
  = [os_listdir "/data/docs"; Dataset_add_samples (Obj 0) []].
Proof.
  apply (load_dataset_no_images demo.handle scenario.disk scenario.disk
           (Obj 0) "/data/docs" None ∅ ["readme.md"; "photo.JPG"; "jpg"]).
  - reflexivity.
  - repeat constructor; intros H%qualifying_spec; discriminate H.
Defined.

Lemma labels_are_declared_classes_witness :
  ∃ samples,
    calls (run demo.handle (load_dataset (Obj 0) "/data/cubes" None ∅) scenario.disk)
    = [os_listdir "/data/cubes"; Dataset_add_samples (Obj 0) samples]
    ∧ Forall (λ s, label (ground_truth s) ∈ ["abnormal"; "normal"]) samples.
Proof.
  apply (labels_are_declared_classes demo.handle scenario.disk scenario.disk
           (Obj 0) "/data/cubes" None ∅
           ["abnormal_01.jpg"; "normal_07.png"; "notes.txt"; "cube_abnormal.png"]
           scenario.disk "/data/cubes" (Some "train") ∅
           ImageClassificationDirectoryTree 188).
  - reflexivity.
  - reflexivity.
Defined.

Lemma load_dataset_distinct_filepaths_witness :
  ∃ samples,
    calls (run demo.handle (load_dataset (Obj 0) "/data/cubes" None ∅) scenario.disk)
    = [os_listdir "/data/cubes"; Dataset_add_samples (Obj 0) samples]
    ∧ NoDup (filepath <$> samples).
Proof.
  apply (load_dataset_distinct_filepaths demo.handle scenario.disk scenario.disk
           (Obj 0) "/data/cubes" None ∅
           ["abnormal_01.jpg"; "normal_07.png"; "notes.txt"; "cube_abnormal.png"]).
  - reflexivity.
  - apply (bool_decide_unpack _). vm_compute. exact I.
  - repeat constructor; intros H%startswith_spec; discriminate H.
Defined.

Lemma load_dataset_filepath_shape_witness :
  ∃ samples,
    calls (run demo.handle (load_dataset (Obj 0) "/data/cubes" None ∅) scenario.disk)
    = [os_listdir "/data/cubes"; Dataset_add_samples (Obj 0) samples]
    ∧ filepath <$> samples
      = (λ name, "/data/cubes" +:+ "/" +:+ name)
          <$> filter qualifying
                ["abnormal_01.jpg"; "normal_07.png"; "notes.txt"; "cube_abnormal.png"].
Proof.
  apply (load_dataset_filepath_shape demo.handle scenario.disk scenario.disk).
  - reflexivity.
  - discriminate.
  - intros H%endswith_spec. discriminate H.
  - repeat constructor; intros H%startswith_spec; discriminate H.
Defined.

Lemma load_dataset_drops_other_files_witness :
  ∃ samples,
    calls (run demo.handle (load_dataset (Obj 0) "/data/cubes" None ∅) scenario.disk)
    = [os_listdir "/data/cubes"; Dataset_add_samples (Obj 0) samples]
    ∧ (length samples ≤ 4)%nat
    ∧ (length samples = 4%nat
       ↔ Forall qualifying
           ["abnormal_01.jpg"; "normal_07.png"; "notes.txt"; "cube_abnormal.png"]).
Proof.
  apply (load_dataset_drops_other_files demo.handle scenario.disk scenario.disk
           (Obj 0) "/data/cubes" None ∅
           ["abnormal_01.jpg"; "normal_07.png"; "notes.txt"; "cube_abnormal.png"]).
  reflexivity.
Defined.

(** In the example directory one of the four entries is not an image, so
    three samples are handed over. *)
Example load_dataset_drops_notes :
  ∃ samples,
    calls (run demo.handle (load_dataset (Obj 0) "/data/cubes" None ∅) scenario.disk)
    = [os_listdir "/data/cubes"; Dataset_add_samples (Obj 0) samples]
    ∧ length samples = 3%nat
    ∧ ¬ Forall qualifying
          ["abnormal_01.jpg"; "normal_07.png"; "notes.txt"; "cube_abnormal.png"].
Proof.
  eexists. split; [reflexivity |]. split; [reflexivity |].
  intros H. apply (Forall_lookup_1 _ _ 2 "notes.txt") in H; [| reflexivity].
  apply qualifying_spec in H. discriminate H.
Qed.

Lemma download_and_prepare_absolute_split_witness :
  calls (run demo.handle (download_and_prepare "/data/cubes" (Some "/srv/train") ∅)
           scenario.disk)
  = [os_makedirs "/srv/train" true].
Proof.
  apply (download_and_prepare_absolute_split demo.handle scenario.disk
           "/data/cubes" "/srv/train" ∅).
  by exists "srv/train".
Defined.

Lemma dict_comprehension_keys_witness :
  ∃ m : gmap pyval pyval,
    dict_comprehension (concat demo.batches) ∅ = inr m
    ∧ (∀ k, is_Some (m !! k)
            ↔ ∃ p : pydict, p ∈ concat demo.batches ∧ p !! "filepath" = Some k)
    ∧ (size m ≤ 3)%nat.
Proof.
  eexists. split; [reflexivity |].
  apply (dict_comprehension_keys (concat demo.batches)). reflexivity.
Defined.

Lemma dict_comprehension_distinct_witness :
  ∃ m : gmap pyval pyval,
    dict_comprehension (concat scenario.distinct) ∅ = inr m
    ∧ size m = 2%nat
    ∧ ∀ p : pydict, p ∈ concat scenario.distinct →
        ∃ k, p !! "filepath" = Some k ∧ m !! k = p !! "predictions".
Proof.
  eexists. split; [reflexivity |].
  apply (dict_comprehension_distinct (concat scenario.distinct)).
  - reflexivity.
  - apply (bool_decide_unpack _). vm_compute. exact I.
Defined.

Lemma module_body_success_witness :
  length (trace (run demo.handle module_body demo.disk)) = 13%nat.
Proof.
  destruct (module_body_success demo.handle demo.disk eq_refl)
    as (? & ? & ? & ? & ? & ? & ? & ? & ? & ? & -> & _).
  reflexivity.
Defined.

Lemma missing_entry_raises_KeyError_witness :
  ∃ i (p : pydict) key,
    concat scenario.incomplete !! i = Some p
    ∧ Forall (λ q : pydict, is_Some (q !! "filepath") ∧ is_Some (q !! "predictions"))
        (take i (concat scenario.incomplete))
    ∧ (key = "filepath" ∨ key = "predictions")
    ∧ p !! key = None
    ∧ outcome_of (run (scenario.predicting scenario.incomplete) module_body demo.disk)
      = Raised (Exception "KeyError" key)
    ∧ length (trace (run (scenario.predicting scenario.incomplete) module_body demo.disk))
      = 11%nat.
Proof.
  apply (missing_entry_raises_KeyError (scenario.predicting scenario.incomplete)
           demo.disk 10 (Obj 5) (Obj 4) (Obj 3) (Obj 6) scenario.incomplete).
  - vm_compute. reflexivity.
  - intros HF.
    apply (Forall_lookup_1 _ _ 2 {[ "filepath" := PStr "c.png" ]}) in HF; [| reflexivity].
    destruct HF as [_ [v Hv]]. vm_compute in Hv. discriminate Hv.
Defined.

Lemma no_predictions_empty_mapping_witness :
  ∃ dataset r,
    trace (run (scenario.predicting [[]; []]) module_body demo.disk) !! 11%nat
    = Some (Event (Dataset_set_values dataset "flash_predictions" ∅ "filepath") r).
Proof.
  apply (no_predictions_empty_mapping (scenario.predicting [[]; []])
           demo.disk 10 (Obj 5) (Obj 4) (Obj 3) (Obj 6) [[]; []]).
  - vm_compute. reflexivity.
  - reflexivity.
Defined.

(** The mapping merged on the example world. *)
Lemma predictions_merged_by_filepath_witness :
  ∃ dataset trainer model datamodule output batches values,
    trace (run demo.handle module_body demo.disk) !! 1%nat
    = Some (Event (Dataset_from_dir "/tmp/carla_data" ImageSegmentationDirectory
                     "CameraRGB" "CameraSeg" true true)
              (inr (VObj dataset)))
    ∧ trace (run demo.handle module_body demo.disk) !! 10%nat
      = Some (Event (Trainer_predict trainer model datamodule output)
                (inr (VBatches batches)))
    ∧ trace (run demo.handle module_body demo.disk) !! 11%nat
      = Some (Event (Dataset_set_values dataset "flash_predictions" values "filepath")
                (inr VNone))
    ∧ dict_comprehension (concat batches) ∅ = inr values
    ∧ ∀ k v, values !! k = Some v ↔ last_for (concat batches) k v.
Proof.
  exact (proj2 (proj2 (predictions_merged_by_filepath demo.handle demo.disk)) eq_refl).
Defined.

(** The checkpoint written on the example world. *)
Lemma checkpoint_between_finetune_and_predict_witness :
  ∃ trainer model datamodule output batches,
    trace (run demo.handle module_body demo.disk) !! 7%nat
    = Some (Event (Trainer_finetune trainer model datamodule "freeze") (inr VNone))
    ∧ trace (run demo.handle module_body demo.disk) !! 8%nat
      = Some (Event (Trainer_save_checkpoint trainer "/tmp/semantic_segmentation_model.pt")
                (inr VNone))
    ∧ trace (run demo.handle module_body demo.disk) !! 10%nat
      = Some (Event (Trainer_predict trainer model datamodule output)
                (inr (VBatches batches))).
Proof.
  exact (proj2 (proj2 (proj2
           (checkpoint_between_finetune_and_predict demo.handle demo.disk))) eq_refl).
Defined.

End Scenarios.
